(** * SWCharEst: soil-water characteristics after Saxton & Rawls (2006)

    Shallow embedding of [src/src/SWCharEst.py] (class [SWCharEst]).

    Modelling conventions:
    - Python floats are modelled as exact real numbers [R]; rounding of the
      intermediate binary floating-point operations is not modelled.
    - [math.log], the division operator and [math.pow] are partial: they
      return [Ok v] or raise a Python exception ([ValueError] for a domain
      error, [ZeroDivisionError] for a zero divisor).
    - [min] and [max] follow CPython: the first argument is kept unless the
      second compares strictly smaller (resp. greater).
    - [round(x, 6)] rounds to the nearest multiple of 10^-6, ties to even.
    - The result dictionary is an association list in insertion order.
    - The [DEBUG] printout is an output trace of (label, value) pairs. *)

From Stdlib Require Import Reals Lra Lia ZArith List String.
Import ListNotations.
Open Scope R_scope.
Open Scope string_scope.

(** ** Python runtime fragment *)

Inductive pyexc : Type := ValueError | ZeroDivisionError.

Inductive res (A : Type) : Type :=
| Ok (a : A)
| Raise (e : pyexc).
Arguments Ok {A} a.
Arguments Raise {A} e.

Definition bind {A B : Type} (m : res A) (k : A -> res B) : res B :=
  match m with
  | Ok a => k a
  | Raise e => Raise e
  end.

Notation "x <- m ;; k" := (bind m (fun x => k))
  (at level 61, m at next level, right associativity).

(** Comparisons on floats, as booleans. *)
Definition py_lt (x y : R) : bool := if Rlt_dec x y then true else false.

(** [min(a, b)] and [max(a, b)] of CPython. *)
Definition py_min (a b : R) : R := if py_lt b a then b else a.
Definition py_max (a b : R) : R := if py_lt a b then b else a.

(** [math.log(x)]: domain error for [x <= 0]. *)
Definition py_log (x : R) : res R :=
  if Rle_dec x 0 then Raise ValueError else Ok (ln x).

(** [x / y] on floats. *)
Definition py_div (x y : R) : res R :=
  if Req_EM_T y 0 then Raise ZeroDivisionError else Ok (x / y).

(** [math.pow(x, y)]: a negative base needs an integral exponent, and a zero
    base a non-negative exponent. *)
Definition py_pow (x y : R) : res R :=
  if Rlt_dec 0 x then Ok (Rpower x y)
  else if Req_EM_T x 0 then
    (if Rlt_dec y 0 then Raise ValueError
     else if Req_EM_T y 0 then Ok 1 else Ok 0)
  else if Req_EM_T (IZR (Int_part y)) y then Ok (powerRZ x (Int_part y))
  else Raise ValueError.

(** [round(x, 6)]: nearest multiple of 10^-6, ties to even. *)
Definition round6 (x : R) : R :=
  let y := x * 10 ^ 6 in
  let n := Int_part y in
  let f := y - IZR n in
  if Rlt_dec f (1 / 2) then IZR n / 10 ^ 6
  else if Rlt_dec (1 / 2) f then IZR (n + 1) / 10 ^ 6
  else if Z.even n then IZR n / 10 ^ 6 else IZR (n + 1) / 10 ^ 6.

(** A Python [dict] with string keys, in insertion order. *)
Definition dict := list (string * R).

Fixpoint lookup (k : string) (d : dict) : option R :=
  match d with
  | [] => None
  | (k', v) :: d' => if String.eqb k k' then Some v else lookup k d'
  end.

(** ** [SWCharEst.__CheckArgs] *)

Definition CheckArgs (sand clay ompc : R) : bool :=
  let ok := true in
  let ok := if (py_lt sand 0 || py_lt 1 sand)%bool then false else ok in
  let ok := if (py_lt clay 0 || py_lt 1 clay)%bool then false else ok in
  let ok := if (py_lt ompc 0 || py_lt 70 ompc)%bool then false else ok in
  let ok := if py_lt 1 (sand + clay) then false else ok in
  ok.

(** ** The regression chain of [SWCharEst.Get] (lines 68-98) *)

Definition theta1500t (sand clay om : R) : R :=
  -0.024 * sand + 0.487 * clay + 0.006 * om
  + 0.005 * sand * om
  - 0.013 * clay * om
  + 0.068 * sand * clay
  + 0.031.

(** [theta1500] as first assigned, line 74. *)
Definition theta1500_0 (sand clay om : R) : R :=
  let t := theta1500t sand clay om in
  py_max 0.01 (t + 0.14 * t - 0.02).

Definition theta33t (sand clay om : R) : R :=
  -0.251 * sand + 0.195 * clay + 0.011 * om
  + 0.006 * sand * om
  - 0.027 * clay * om
  + 0.452 * sand * clay
  + 0.299.

Definition theta33 (sand clay om : R) : R :=
  let t := theta33t sand clay om in
  py_min 0.80 (t + 1.283 * t * t - 0.374 * t - 0.015).

(** [theta1500] as re-assigned, line 87. *)
Definition theta1500 (sand clay om : R) : R :=
  py_min (theta1500_0 sand clay om) (0.80 * theta33 sand clay om).

Definition thetaS33t (sand clay om : R) : R :=
  0.278 * sand + 0.034 * clay + 0.022 * om
  - 0.018 * sand * om
  - 0.027 * clay * om
  - 0.584 * sand * clay
  + 0.078.

Definition thetaS33 (sand clay om : R) : R :=
  let t := thetaS33t sand clay om in
  t + 0.636 * t - 0.107.

Definition thetaS (sand clay om : R) : R :=
  theta33 sand clay om + thetaS33 sand clay om - 0.097 * sand + 0.043.

(** Lines 100-104: [B], [lamda] and [Ks], in Python's evaluation order. *)
Definition tail_chain (th33 th1500 thS : R) : res (R * R * R) :=
  l33 <- py_log th33 ;;
  l1500 <- py_log th1500 ;;
  B <- py_div 3.816713 (l33 - l1500) ;;
  lamda <- py_div 1.0 B ;;
  p <- py_pow (thS - th33) (3.0 - lamda) ;;
  Ks <- py_div (1930.0 * p) 36000.0 ;;
  Ok (B, lamda, Ks).

(** ** [SWCharEst.Get]

    Returns the outcome (a Python exception, [None], or the result dict)
    and the lines printed when [DEBUG] is set. *)
Definition Get (sand clay ompc : R) (DEBUG : bool)
  : res (option dict) * list (string * R) :=
  let om := py_min 70.0 ompc in
  if negb (CheckArgs sand clay om) then (Ok None, []) else
  let t1500t := theta1500t sand clay om in
  let t33t := theta33t sand clay om in
  let t33 := theta33 sand clay om in
  let t1500 := theta1500 sand clay om in
  let tS33t := thetaS33t sand clay om in
  let tS33 := thetaS33 sand clay om in
  let tS := thetaS sand clay om in
  match tail_chain t33 t1500 tS with
  | Raise e => (Raise e, [])
  | Ok (B, lamda, Ks) =>
      let out :=
        if DEBUG then
          [("sand", sand); ("clay", clay); ("om", om);
           ("theta1500t", t1500t); ("theta1500", t1500);
           ("theta33t", t33t); ("theta33", t33);
           ("thetaS33t", tS33t); ("thetaS33", tS33);
           ("thetaS", tS); ("B", B); ("lamda", lamda); ("Ks", Ks)]
        else [] in
      let results := [("WP", round6 t1500); ("FC", round6 t33);
                      ("thetaS", round6 tS); ("Ks", round6 Ks)] in
      (Ok (Some results), out)
  end.

(** ** Words of the specification used by the claims *)

(** The four checks of spec section 4.1, at least one failing. *)
Definition checks_fail (sand clay om : R) : Prop :=
  (sand < 0 \/ sand > 1) \/ (clay < 0 \/ clay > 1) \/
  (om < 0 \/ om > 70) \/ sand + clay > 1.

(** The tolerance test [AreClose(a, b, threshold)] of
    [src/tests/Test_SWCharEst.py]. *)
Definition AreClose (a b threshold : R) : Prop :=
  if Req_EM_T (1 + (a - b) - 1) 0 then True
  else if Req_EM_T a 0 then
    (if Req_EM_T b 0 then True else Rabs ((a - b) / b) <= threshold)
  else Rabs ((a - b) / a) <= threshold.

(** The dict returned by [Get] when the whole chain succeeds with a positive
    base in [math.pow]; [om] is the clamped organic matter. *)
Definition code_result (sand clay om : R) : dict :=
  let t33 := theta33 sand clay om in
  let t1500 := theta1500 sand clay om in
  let tS := thetaS sand clay om in
  let B := 3.816713 / (ln t33 - ln t1500) in
  let lamda := 1.0 / B in
  [("WP", round6 t1500); ("FC", round6 t33); ("thetaS", round6 tS);
   ("Ks", round6 (1930.0 * Rpower (tS - t33) (3.0 - lamda) / 36000.0))].

(** ** The reference chain of the specification (section 4.1, steps 1-11)

    Written from the words of the specification, to be compared with
    [Get]. *)
Module Reference.

Definition om (organicMatterPercent : R) : R := Rmin 70 organicMatterPercent.

Definition theta1500_raw (sand clay om : R) : R :=
  -0.024 * sand + 0.487 * clay + 0.006 * om + 0.005 * sand * om
  - 0.013 * clay * om + 0.068 * sand * clay + 0.031.

(** Step 2. *)
Definition theta1500_2 (sand clay om : R) : R :=
  let r := theta1500_raw sand clay om in Rmax 0.01 (r + 0.14 * r - 0.02).

Definition theta33_raw (sand clay om : R) : R :=
  -0.251 * sand + 0.195 * clay + 0.011 * om + 0.006 * sand * om
  - 0.027 * clay * om + 0.452 * sand * clay + 0.299.

(** Step 4. *)
Definition theta33 (sand clay om : R) : R :=
  let r := theta33_raw sand clay om in
  Rmin 0.80 (r + 1.283 * r ^ 2 - 0.374 * r - 0.015).

(** Step 5. *)
Definition theta1500 (sand clay om : R) : R :=
  Rmin (theta1500_2 sand clay om) (0.80 * theta33 sand clay om).

Definition thetaS33_raw (sand clay om : R) : R :=
  0.278 * sand + 0.034 * clay + 0.022 * om - 0.018 * sand * om
  - 0.027 * clay * om - 0.584 * sand * clay + 0.078.

(** Steps 7 and 8. *)
Definition thetaS (sand clay om : R) : R :=
  let r := thetaS33_raw sand clay om in
  let thetaS33 := r + 0.636 * r - 0.107 in
  theta33 sand clay om + thetaS33 - 0.097 * sand + 0.043.

(** Steps 9 and 10. *)
Definition B (sand clay om : R) : R :=
  3.816713 / (ln (theta33 sand clay om) - ln (theta1500 sand clay om)).

Definition lambda (sand clay om : R) : R := 1 / B sand clay om.

(** [x ^ y] for a non-negative base [x] and a positive exponent [y]. *)
Definition rpow (x y : R) : R := if Req_EM_T x 0 then 0 else Rpower x y.

(** Step 11. *)
Definition Ks (sand clay om : R) : R :=
  1930 * rpow (thetaS sand clay om - theta33 sand clay om) (3 - lambda sand clay om)
  / 36000.

(** Result assembly. *)
Definition result (sand clay organicMatterPercent : R) : dict :=
  let o := om organicMatterPercent in
  [("WP", round6 (theta1500 sand clay o)); ("FC", round6 (theta33 sand clay o));
   ("thetaS", round6 (thetaS sand clay o)); ("Ks", round6 (Ks sand clay o))].

End Reference.

(** ** Polynomial bounds for [exp] on [-1, 0] (alternating Taylor series) *)

Definition exp_neg_lo (x : R) : R :=
  1 - x + x ^ 2 / 2 - x ^ 3 / 6 + x ^ 4 / 24 - x ^ 5 / 120 + x ^ 6 / 720
  - x ^ 7 / 5040 + x ^ 8 / 40320 - x ^ 9 / 362880.

Definition exp_neg_hi (x : R) : R :=
  1 - x + x ^ 2 / 2 - x ^ 3 / 6 + x ^ 4 / 24 - x ^ 5 / 120 + x ^ 6 / 720
  - x ^ 7 / 5040 + x ^ 8 / 40320.

(** ** Lemmas on the Python runtime fragment *)

Lemma py_lt_true x y : py_lt x y = true <-> x < y.
Proof. unfold py_lt; destruct (Rlt_dec x y); split; intros; auto; try discriminate; contradiction. Qed.

Lemma py_lt_false x y : py_lt x y = false <-> y <= x.
Proof. unfold py_lt; destruct (Rlt_dec x y); split; intros; try discriminate; lra. Qed.

Lemma py_min_l a b : a <= b -> py_min a b = a.
Proof. unfold py_min, py_lt; destruct (Rlt_dec b a); lra. Qed.

Lemma py_min_r a b : b <= a -> py_min a b = b.
Proof. unfold py_min, py_lt; destruct (Rlt_dec b a); lra. Qed.

Lemma py_max_l a b : b <= a -> py_max a b = a.
Proof. unfold py_max, py_lt; destruct (Rlt_dec a b); lra. Qed.

Lemma py_max_r a b : a <= b -> py_max a b = b.
Proof. unfold py_max, py_lt; destruct (Rlt_dec a b); lra. Qed.

Lemma py_min_Rmin a b : py_min a b = Rmin a b.
Proof.
  destruct (Rle_dec a b).
  - rewrite py_min_l, Rmin_left; auto.
  - rewrite py_min_r, Rmin_right; lra.
Qed.

Lemma py_max_Rmax a b : py_max a b = Rmax a b.
Proof.
  destruct (Rle_dec a b).
  - rewrite py_max_r, Rmax_right; auto.
  - rewrite py_max_l, Rmax_left; lra.
Qed.

Lemma py_min_le_l a b : py_min a b <= a.
Proof. rewrite py_min_Rmin; apply Rmin_l. Qed.

Lemma py_min_le_r a b : py_min a b <= b.
Proof. rewrite py_min_Rmin; apply Rmin_r. Qed.

Lemma py_max_ge_l a b : a <= py_max a b.
Proof. rewrite py_max_Rmax; apply Rmax_l. Qed.

Lemma py_min_cases a b : py_min a b = a \/ py_min a b = b.
Proof. unfold py_min; destruct (py_lt b a); auto. Qed.

Lemma py_log_ok x : 0 < x -> py_log x = Ok (ln x).
Proof. intros H; unfold py_log; destruct (Rle_dec x 0); [lra | reflexivity]. Qed.

Lemma py_log_ok_inv x l : py_log x = Ok l -> 0 < x /\ l = ln x.
Proof.
  unfold py_log; destruct (Rle_dec x 0); intros H; [discriminate|].
  injection H; intros; split; [lra | auto].
Qed.

Lemma py_div_ok x y : y <> 0 -> py_div x y = Ok (x / y).
Proof. intros H; unfold py_div; destruct (Req_EM_T y 0); [contradiction | reflexivity]. Qed.

Lemma py_div_ok_inv x y q : py_div x y = Ok q -> y <> 0 /\ q = x / y.
Proof.
  unfold py_div; destruct (Req_EM_T y 0); intros H; [discriminate|].
  injection H; intros; auto.
Qed.

Lemma py_pow_pos x y : 0 < x -> py_pow x y = Ok (Rpower x y).
Proof. intros H; unfold py_pow; destruct (Rlt_dec 0 x); [reflexivity | lra]. Qed.

Lemma py_pow_zero y : 0 < y -> py_pow 0 y = Ok 0.
Proof.
  intros H; unfold py_pow.
  destruct (Rlt_dec 0 0); [lra|].
  destruct (Req_EM_T 0 0); [|lra].
  destruct (Rlt_dec y 0); [lra|].
  destruct (Req_EM_T y 0); [lra | reflexivity].
Qed.

(** ** [__CheckArgs] *)

Lemma CheckArgs_true_iff sand clay ompc :
  CheckArgs sand clay ompc = true <->
  (0 <= sand <= 1 /\ 0 <= clay <= 1 /\ 0 <= ompc <= 70 /\ sand + clay <= 1).
Proof.
  unfold CheckArgs, py_lt.
  destruct (Rlt_dec sand 0), (Rlt_dec 1 sand), (Rlt_dec clay 0), (Rlt_dec 1 clay),
    (Rlt_dec ompc 0), (Rlt_dec 70 ompc), (Rlt_dec 1 (sand + clay));
    simpl; split; intros; try discriminate; try lra; auto.
Qed.

Lemma CheckArgs_false_iff sand clay ompc :
  CheckArgs sand clay ompc = false <-> checks_fail sand clay ompc.
Proof.
  unfold checks_fail.
  destruct (CheckArgs sand clay ompc) eqn:E.
  - apply CheckArgs_true_iff in E. split; intros; [discriminate | lra].
  - split; intros _; [|reflexivity].
    destruct (Rlt_dec sand 0); [lra|].
    destruct (Rlt_dec 1 sand); [lra|].
    destruct (Rlt_dec clay 0); [lra|].
    destruct (Rlt_dec 1 clay); [lra|].
    destruct (Rlt_dec ompc 0); [lra|].
    destruct (Rlt_dec 70 ompc); [lra|].
    destruct (Rlt_dec 1 (sand + clay)); [lra|].
    assert (CheckArgs sand clay ompc = true) by (apply CheckArgs_true_iff; lra).
    congruence.
Qed.

(** ** [round(x, 6)] *)

Lemma Int_part_bounds r : IZR (Int_part r) <= r < IZR (Int_part r) + 1.
Proof. destruct (base_Int_part r); lra. Qed.

Lemma round6_cases x :
  let n := Int_part (x * 10 ^ 6) in
  (round6 x = IZR n / 10 ^ 6 /\ x * 10 ^ 6 - IZR n <= 1 / 2) \/
  (round6 x = IZR (n + 1) / 10 ^ 6 /\ 1 / 2 <= x * 10 ^ 6 - IZR n).
Proof.
  intros n; unfold round6; fold n.
  destruct (Rlt_dec (x * 10 ^ 6 - IZR n) (1 / 2)); [left; split; [reflexivity | lra]|].
  destruct (Rlt_dec (1 / 2) (x * 10 ^ 6 - IZR n)); [right; split; [reflexivity | lra]|].
  destruct (Z.even n); [left | right]; split; try reflexivity; lra.
Qed.

Lemma round6_multiple x : exists z : Z, round6 x = IZR z / 10 ^ 6.
Proof.
  destruct (round6_cases x) as [[-> _] | [-> _]]; eexists; reflexivity.
Qed.

Lemma round6_near x : x - 1 / 2 / 10 ^ 6 <= round6 x <= x + 1 / 2 / 10 ^ 6.
Proof.
  pose proof (Int_part_bounds (x * 10 ^ 6)) as Hb.
  destruct (round6_cases x) as [[-> H] | [-> H]]; rewrite ?plus_IZR in *; simpl in *;
    split; lra.
Qed.

Lemma round6_exact x (n : Z) :
  IZR n <= x * 10 ^ 6 < IZR n + 1 / 2 -> round6 x = IZR n / 10 ^ 6.
Proof.
  intros H.
  assert (Hn : n = Int_part (x * 10 ^ 6)) by (apply Int_part_spec; lra).
  destruct (round6_cases x) as [[-> _] | [_ H']]; rewrite <- Hn in *; [reflexivity | lra].
Qed.

Lemma round6_ge x (m : Z) : IZR m / 10 ^ 6 <= x -> IZR m / 10 ^ 6 <= round6 x.
Proof.
  intros H.
  pose proof (Int_part_bounds (x * 10 ^ 6)) as Hb.
  pose proof (round6_cases x) as Hc; cbv zeta in Hc.
  set (n := Int_part (x * 10 ^ 6)) in *.
  assert (Hmn : (m <= n)%Z).
  { assert (IZR m < IZR n + 1) by (simpl in *; lra).
    rewrite <- plus_IZR in H0; apply lt_IZR in H0; lia. }
  apply IZR_le in Hmn.
  destruct Hc as [[-> _] | [-> _]]; rewrite ?plus_IZR; simpl in *; lra.
Qed.

Lemma round6_le x (m : Z) : x <= IZR m / 10 ^ 6 -> round6 x <= IZR m / 10 ^ 6.
Proof.
  intros H.
  pose proof (Int_part_bounds (x * 10 ^ 6)) as Hb.
  pose proof (round6_cases x) as Hc; cbv zeta in Hc.
  set (n := Int_part (x * 10 ^ 6)) in *.
  assert (Hx : x * 10 ^ 6 <= IZR m) by (simpl in *; lra).
  destruct Hc as [[-> _] | [-> Hf]].
  - assert (IZR n <= IZR m) by lra. simpl in *; lra.
  - assert (Hnm : (n + 1 <= m)%Z).
    { assert (IZR n < IZR m) by lra. apply lt_IZR in H0; lia. }
    apply IZR_le in Hnm. rewrite plus_IZR in *; simpl in *; lra.
Qed.

(** ** Bounds on [exp] *)

Lemma INR_fact_S n : INR (fact (S n)) = INR (S n) * INR (fact n).
Proof. rewrite fact_simpl, mult_INR; reflexivity. Qed.

Lemma exp_neg_bounds x : 0 <= x <= 1 -> exp_neg_lo x <= exp (- x) <= exp_neg_hi x.
Proof.
  intros Hx.
  set (Un := fun i : nat => x ^ i / INR (fact i)).
  assert (Hpos : forall n, 0 <= Un n).
  { intros n; unfold Un, Rdiv; apply Rmult_le_pos;
      [apply pow_le; lra | left; apply Rinv_0_lt_compat, INR_fact_lt_0]. }
  assert (Hdec : Un_decreasing Un).
  { intros n.
    assert (HS : 1 <= INR (S n)) by (rewrite S_INR; pose proof (pos_INR n); lra).
    assert (Heq : Un (S n) = Un n * (x / INR (S n))).
    { unfold Un; rewrite INR_fact_S; simpl pow; field.
      split; [lra | apply INR_fact_neq_0]. }
    assert (Hq : 0 <= x / INR (S n) <= 1).
    { split; [unfold Rdiv; apply Rmult_le_pos; [lra | left; apply Rinv_0_lt_compat; lra]|].
      unfold Rdiv; apply Rmult_le_reg_r with (INR (S n)); [lra|].
      rewrite Rmult_assoc, Rinv_l, Rmult_1_r; lra. }
    rewrite Heq; pose proof (Hpos n); nra. }
  assert (Hcv0 : Un_cv Un 0) by apply cv_speed_pow_fact.
  assert (Hsum : Un_cv (fun N => sum_f_R0 (tg_alt Un) N) (exp (- x))).
  { unfold exp; destruct (exist_exp (- x)) as [l Hl]; simpl.
    intros eps Heps; destruct (Hl eps Heps) as [N HN]; exists N; intros n Hn.
    replace (sum_f_R0 (tg_alt Un) n)
      with (sum_f_R0 (fun i => / INR (fact i) * (- x) ^ i) n); [apply HN; auto|].
    apply sum_eq; intros i _; unfold tg_alt, Un.
    replace (- x) with (-1 * x) by ring; rewrite Rpow_mult_distr.
    unfold Rdiv; ring. }
  destruct (alternated_series_ineq Un (exp (- x)) 4 Hdec Hcv0 Hsum) as [Hlo Hhi].
  cbn [Nat.mul Nat.add sum_f_R0] in Hlo, Hhi; unfold tg_alt, Un in Hlo, Hhi.
  cbv beta in Hlo, Hhi.
  rewrite ?INR_fact_S in Hlo; rewrite ?INR_fact_S in Hhi.
  cbn [fact INR] in Hlo, Hhi.
  unfold exp_neg_lo, exp_neg_hi; split; lra.
Qed.

Lemma exp_le_mono a b : a <= b -> exp a <= exp b.
Proof.
  intros [H | ->]; [left; apply exp_increasing; auto | right; reflexivity].
Qed.

(** Rewrites every [min]/[max] whose comparison [lra] decides. *)
Ltac eval_minmax :=
  repeat first
    [ rewrite py_max_r by lra | rewrite py_max_l by lra
    | rewrite py_min_l by lra | rewrite py_min_r by lra ].

(** ** Facts on the regression chain *)

Lemma om_clamp_Rmin ompc : py_min 70.0 ompc = Rmin 70 ompc.
Proof. rewrite py_min_Rmin; replace 70.0 with 70 by lra; reflexivity. Qed.

Lemma theta33_le_080 sand clay om : theta33 sand clay om <= 0.80.
Proof. apply py_min_le_l. Qed.

Lemma theta1500_le_theta33 sand clay om :
  theta1500 sand clay om <= 0.80 * theta33 sand clay om.
Proof. apply py_min_le_r. Qed.

Lemma theta1500_0_ge sand clay om : 0.01 <= theta1500_0 sand clay om.
Proof. apply py_max_ge_l. Qed.

Lemma py_pow_not_zerodiv x y : py_pow x y <> Raise ZeroDivisionError.
Proof.
  unfold py_pow.
  destruct (Rlt_dec 0 x); [discriminate|].
  destruct (Req_EM_T x 0).
  - destruct (Rlt_dec y 0); [discriminate|]. destruct (Req_EM_T y 0); discriminate.
  - destruct (Req_EM_T (IZR (Int_part y)) y); discriminate.
Qed.

Lemma ln_gap_pos t33 t1500 :
  0 < t1500 -> t1500 <= 0.80 * t33 -> 0 < ln t33 - ln t1500.
Proof.
  intros H1 H2.
  assert (ln t1500 < ln t33) by (apply ln_increasing; lra). lra.
Qed.

Lemma B_pos t33 t1500 :
  0 < t1500 -> t1500 <= 0.80 * t33 -> 0 < 3.816713 / (ln t33 - ln t1500).
Proof.
  intros H1 H2. pose proof (ln_gap_pos t33 t1500 H1 H2).
  unfold Rdiv; apply Rmult_lt_0_compat; [lra | apply Rinv_0_lt_compat; lra].
Qed.

(** [tail_chain] when both logarithms are defined and the base of
    [math.pow] is positive. *)
Lemma tail_chain_pos t33 t1500 thS :
  0 < t1500 -> t1500 <= 0.80 * t33 -> 0 < thS - t33 ->
  tail_chain t33 t1500 thS =
  Ok (3.816713 / (ln t33 - ln t1500),
      1.0 / (3.816713 / (ln t33 - ln t1500)),
      1930.0 * Rpower (thS - t33) (3.0 - 1.0 / (3.816713 / (ln t33 - ln t1500)))
        / 36000.0).
Proof.
  intros H1 H2 H3.
  pose proof (ln_gap_pos t33 t1500 H1 H2). pose proof (B_pos t33 t1500 H1 H2).
  unfold tail_chain.
  rewrite (py_log_ok t33), (py_log_ok t1500) by lra; cbn [bind].
  rewrite py_div_ok by lra; cbn [bind].
  rewrite py_div_ok by lra; cbn [bind].
  rewrite py_pow_pos by lra; cbn [bind].
  rewrite py_div_ok by lra; reflexivity.
Qed.

(** [Get] on a valid input whose chain is defined with a positive base. *)
Lemma Get_ok sand clay ompc DEBUG :
  CheckArgs sand clay (py_min 70.0 ompc) = true ->
  0 < theta1500 sand clay (py_min 70.0 ompc) ->
  0 < thetaS sand clay (py_min 70.0 ompc) - theta33 sand clay (py_min 70.0 ompc) ->
  fst (Get sand clay ompc DEBUG) = Ok (Some (code_result sand clay (py_min 70.0 ompc))).
Proof.
  intros HC H1 H2. unfold Get. rewrite HC; cbn [negb].
  rewrite tail_chain_pos by (auto using theta1500_le_theta33). reflexivity.
Qed.

(** The chain evaluated at [sand = clay = om = 0]. *)
Lemma chain_000 :
  py_min 70.0 0 = 0 /\
  theta1500 0 0 0 = 0.01534 /\ theta33 0 0 0 = 0.286875483 /\
  thetaS 0 0 0 - theta33 0 0 0 = 0.063608.
Proof.
  assert (H0 : theta1500_0 0 0 0 = 0.01534)
    by (unfold theta1500_0, theta1500t; eval_minmax; lra).
  assert (H33 : theta33 0 0 0 = 0.286875483)
    by (unfold theta33, theta33t; eval_minmax; lra).
  split; [eval_minmax; reflexivity|].
  split; [unfold theta1500; rewrite H0, H33; eval_minmax; lra|].
  split; [exact H33|].
  unfold thetaS, thetaS33, thetaS33t; lra.
Qed.

Lemma CheckArgs_000 : CheckArgs 0 0 (py_min 70.0 0) = true.
Proof. destruct chain_000 as [-> _]; apply CheckArgs_true_iff; lra. Qed.

Lemma Get_000_ok DEBUG :
  fst (Get 0 0 0 DEBUG) = Ok (Some (code_result 0 0 (py_min 70.0 0))).
Proof.
  pose proof chain_000 as (Hom & H1 & H2 & H3).
  apply Get_ok; [exact CheckArgs_000 | rewrite Hom; lra | rewrite Hom; lra].
Qed.

(** ** The code against the reference chain *)

Lemma theta33_reference sand clay om :
  theta33 sand clay om = Reference.theta33 sand clay om.
Proof.
  unfold theta33, Reference.theta33; rewrite py_min_Rmin.
  unfold theta33t, Reference.theta33_raw. f_equal. ring.
Qed.

Lemma theta1500_reference sand clay om :
  theta1500 sand clay om = Reference.theta1500 sand clay om.
Proof.
  unfold theta1500, Reference.theta1500; rewrite py_min_Rmin, theta33_reference.
  unfold theta1500_0, Reference.theta1500_2; rewrite py_max_Rmax. reflexivity.
Qed.

Lemma thetaS_reference sand clay om :
  thetaS sand clay om = Reference.thetaS sand clay om.
Proof.
  unfold thetaS, Reference.thetaS; rewrite theta33_reference.
  unfold thetaS33, thetaS33t, Reference.thetaS33_raw. reflexivity.
Qed.

Lemma exp_11_gt_80 : 80 < exp 11.
Proof.
  replace 11 with (2.75 + 2.75 + 2.75 + 2.75) by lra.
  rewrite !exp_plus.
  pose proof (exp_ineq1_le 2.75) as H.
  assert (H2 : 14 <= exp 2.75 * exp 2.75) by nra.
  nra.
Qed.

(** [lamda] stays below 3 when [theta1500 > 0]: then [theta33] is at most
    80 times [theta1500]. *)
Lemma lamda_lt_3 sand clay om :
  0 < theta1500 sand clay om ->
  1.0 / (3.816713 / (ln (theta33 sand clay om) - ln (theta1500 sand clay om))) < 3.
Proof.
  intros H1.
  set (t33 := theta33 sand clay om) in *; set (t15 := theta1500 sand clay om) in *.
  assert (Hle : t15 <= 0.80 * t33) by apply theta1500_le_theta33.
  assert (H33 : t33 <= 0.80) by apply theta33_le_080.
  assert (Hr : t33 <= 80 * t15).
  { assert (E' : t15 = theta1500_0 sand clay om \/ t15 = 0.80 * t33)
      by exact (py_min_cases _ _).
    destruct E' as [E | E].
    - pose proof (theta1500_0_ge sand clay om). lra.
    - lra. }
  assert (Hgap := ln_gap_pos t33 t15 H1 Hle).
  assert (Hln : ln t33 <= ln 80 + ln t15).
  { rewrite <- ln_mult by lra.
    destruct (Rle_lt_or_eq_dec _ _ Hr) as [Hlt | ->];
      [left; apply ln_increasing; lra | right; reflexivity]. }
  assert (H80 : ln 80 < 11).
  { rewrite <- (ln_exp 11). apply ln_increasing; [lra | apply exp_11_gt_80]. }
  replace (1.0 / (3.816713 / (ln t33 - ln t15))) with ((ln t33 - ln t15) / 3.816713)
    by (replace 1.0 with 1 by lra; field; lra).
  apply Rmult_lt_reg_r with 3.816713; [lra|].
  unfold Rdiv; rewrite Rmult_assoc, Rinv_l by lra. lra.
Qed.

(** [tail_chain] when the base of [math.pow] is zero. *)
Lemma tail_chain_zero t33 t1500 thS :
  0 < t1500 -> t1500 <= 0.80 * t33 -> thS - t33 = 0 ->
  1.0 / (3.816713 / (ln t33 - ln t1500)) < 3 ->
  tail_chain t33 t1500 thS =
  Ok (3.816713 / (ln t33 - ln t1500),
      1.0 / (3.816713 / (ln t33 - ln t1500)),
      1930.0 * 0 / 36000.0).
Proof.
  intros H1 H2 H3 H4.
  pose proof (ln_gap_pos t33 t1500 H1 H2). pose proof (B_pos t33 t1500 H1 H2).
  unfold tail_chain.
  rewrite (py_log_ok t33), (py_log_ok t1500) by lra; cbn [bind].
  rewrite py_div_ok by lra; cbn [bind].
  rewrite py_div_ok by lra; cbn [bind].
  rewrite H3, py_pow_zero by lra; cbn [bind].
  rewrite py_div_ok by lra; reflexivity.
Qed.

(** [B] as computed by [tail_chain]. *)
Lemma tail_chain_B t33 t1500 thS B lamda Ks :
  tail_chain t33 t1500 thS = Ok (B, lamda, Ks) ->
  B = 3.816713 / (ln t33 - ln t1500).
Proof.
  unfold tail_chain.
  destruct (py_log t33) as [l33 | e] eqn:E33; cbn [bind]; [|discriminate].
  destruct (py_log t1500) as [l15 | e] eqn:E15; cbn [bind]; [|discriminate].
  apply py_log_ok_inv in E33 as [_ ->]; apply py_log_ok_inv in E15 as [_ ->].
  destruct (py_div 3.816713 (ln t33 - ln t1500)) as [b | e] eqn:EB; cbn [bind];
    [|discriminate].
  apply py_div_ok_inv in EB as [_ ->].
  destruct (py_div 1.0 _) as [l | e]; cbn [bind]; [|discriminate].
  destruct (py_pow _ _) as [p | e]; cbn [bind]; [|discriminate].
  destruct (py_div _ _) as [k | e]; cbn [bind]; [|discriminate].
  intros H; injection H; intros; subst; reflexivity.
Qed.

(** A result means that [math.log(theta1500)] succeeded. *)
Lemma tail_chain_theta1500_pos t33 t1500 thS r :
  tail_chain t33 t1500 thS = Ok r -> 0 < t1500.
Proof.
  unfold tail_chain.
  destruct (py_log t33) as [l33 | e]; cbn [bind]; [|discriminate].
  destruct (py_log t1500) as [l15 | e] eqn:E15; cbn [bind]; [|discriminate].
  intros _; apply py_log_ok_inv in E15; tauto.
Qed.

Lemma round6_up x (n : Z) :
  IZR n + 1 / 2 < x * 10 ^ 6 < IZR n + 1 -> round6 x = IZR (n + 1) / 10 ^ 6.
Proof.
  intros H.
  assert (Hn : n = Int_part (x * 10 ^ 6)) by (apply Int_part_spec; lra).
  destruct (round6_cases x) as [[_ H'] | [-> _]]; rewrite <- Hn in *; [lra | reflexivity].
Qed.

Lemma AreClose_rel a b t : a <> 0 -> Rabs ((a - b) / a) <= t -> AreClose a b t.
Proof.
  intros Ha H. unfold AreClose.
  destruct (Req_EM_T (1 + (a - b) - 1) 0); [exact I|].
  destruct (Req_EM_T a 0); [contradiction | exact H].
Qed.

(** The chain evaluated at [sand = 0, clay = 1, om = 0.2429]. *)
Lemma chain_0_1_02429 :
  py_min 70.0 0.2429 = 0.2429 /\
  theta1500 0 1 0.2429 = 234375884367603 / 488281250000000 /\
  theta33 0 1 0.2429 = 234375884367603 / 390625000000000 /\
  thetaS 0 1 0.2429 - theta33 0 1 0.2429 = 58622539 / 500000000.
Proof.
  assert (H0 : theta1500_0 0 1 0.2429 = 284290829 / 500000000)
    by (unfold theta1500_0, theta1500t; eval_minmax; lra).
  assert (H33 : theta33 0 1 0.2429 = 234375884367603 / 390625000000000)
    by (unfold theta33, theta33t; eval_minmax; lra).
  split; [eval_minmax; reflexivity|].
  split; [unfold theta1500; rewrite H0, H33; eval_minmax; lra|].
  split; [exact H33|].
  unfold thetaS, thetaS33, thetaS33t; lra.
Qed.

(** The chain evaluated at [sand = 0, clay = 0.7, om = 51]. *)
Lemma chain_0_07_51 :
  py_min 70.0 51 = 51 /\
  theta1500 0 0.7 51 = 169278027 / 31250000000 /\
  theta33 0 0.7 51 = 169278027 / 25000000000 /\
  thetaS 0 0.7 51 - theta33 0 0.7 51 = 902991 / 2500000.
Proof.
  assert (H0 : theta1500_0 0 0.7 51 = 55933 / 250000)
    by (unfold theta1500_0, theta1500t; eval_minmax; lra).
  assert (H33 : theta33 0 0.7 51 = 169278027 / 25000000000)
    by (unfold theta33, theta33t; eval_minmax; lra).
  split; [eval_minmax; reflexivity|].
  split; [unfold theta1500; rewrite H0, H33; eval_minmax; lra|].
  split; [exact H33|].
  unfold thetaS, thetaS33, thetaS33t; lra.
Qed.

(** ** Interval bounds on [exp] and [ln] *)

Lemma exp_le_of_lo a c :
  0 <= a <= 1 -> 0 <= c -> 1 <= c * exp_neg_lo a -> exp a <= c.
Proof.
  intros Ha Hc H.
  destruct (exp_neg_bounds a Ha) as [Hlo _].
  assert (E : exp a * exp (- a) = 1) by (rewrite <- exp_plus, Rplus_opp_r; apply exp_0).
  pose proof (exp_pos a).
  assert (1 <= c * exp (- a)) by nra.
  nra.
Qed.

Lemma le_exp_of_hi a c :
  0 <= a <= 1 -> 0 <= c -> c * exp_neg_hi a <= 1 -> c <= exp a.
Proof.
  intros Ha Hc H.
  destruct (exp_neg_bounds a Ha) as [_ Hhi].
  assert (E : exp a * exp (- a) = 1) by (rewrite <- exp_plus, Rplus_opp_r; apply exp_0).
  pose proof (exp_pos a).
  assert (c * exp (- a) <= 1) by nra.
  nra.
Qed.

Lemma ln_le_mono x y : 0 < x -> x <= y -> ln x <= ln y.
Proof.
  intros Hx [H | ->]; [left; apply ln_increasing; auto | right; reflexivity].
Qed.

Lemma ln_ge_of_exp_le a x : exp a <= x -> a <= ln x.
Proof.
  intros H. rewrite <- (ln_exp a). apply ln_le_mono; [apply exp_pos | exact H].
Qed.

Lemma ln_le_of_le_exp a x : 0 < x -> x <= exp a -> ln x <= a.
Proof.
  intros Hx H. rewrite <- (ln_exp a). apply ln_le_mono; assumption.
Qed.

Lemma ln_diff_ge a x y : 0 < y -> exp a * y <= x -> a <= ln x - ln y.
Proof.
  intros Hy H.
  assert (Hm : ln (exp a * y) = a + ln y) by (rewrite ln_mult, ln_exp; [ring | apply exp_pos | exact Hy]).
  pose proof (ln_le_mono (exp a * y) x) as Hl.
  assert (0 < exp a * y) by (pose proof (exp_pos a); nra).
  specialize (Hl ltac:(assumption) H). lra.
Qed.

Lemma ln_diff_le a x y : 0 < x -> 0 < y -> x <= exp a * y -> ln x - ln y <= a.
Proof.
  intros Hx Hy H.
  assert (Hm : ln (exp a * y) = a + ln y) by (rewrite ln_mult, ln_exp; [ring | apply exp_pos | exact Hy]).
  pose proof (ln_le_mono x (exp a * y) Hx H). lra.
Qed.

(** The chain evaluated at [sand = 0.85, clay = 0.04, om = 2.08]. *)
Lemma chain_085 :
  py_min 70.0 2.08 = 2.08 /\
  theta1500 0.85 0.04 2.08 = 624979 / 15625000 /\
  theta33 0.85 0.04 2.08 = 611534530383883 / 6250000000000000 /\
  thetaS 0.85 0.04 2.08 = 2840344090383883 / 6250000000000000.
Proof.
  assert (H0 : theta1500_0 0.85 0.04 2.08 = 624979 / 15625000)
    by (unfold theta1500_0, theta1500t; eval_minmax; lra).
  assert (H33 : theta33 0.85 0.04 2.08 = 611534530383883 / 6250000000000000)
    by (unfold theta33, theta33t; eval_minmax; lra).
  split; [eval_minmax; reflexivity|].
  split; [unfold theta1500; rewrite H0, H33; eval_minmax; lra|].
  split; [exact H33|].
  unfold thetaS, thetaS33, thetaS33t; rewrite H33; lra.
Qed.

Lemma lnratio_085 :
  0.8945 <= ln (611534530383883 / 6250000000000000) - ln (624979 / 15625000) <= 0.8946.
Proof.
  split.
  - apply ln_diff_ge; [lra|].
    assert (exp 0.8945 <= (611534530383883 / 6250000000000000) / (624979 / 15625000)).
    { apply exp_le_of_lo; [lra | lra | unfold exp_neg_lo; lra]. }
    apply Rmult_le_compat_r with (r := 624979 / 15625000) in H; [|lra].
    replace (611534530383883 / 6250000000000000 / (624979 / 15625000) * (624979 / 15625000))
      with (611534530383883 / 6250000000000000) in H by field. exact H.
  - apply ln_diff_le; [lra | lra |].
    assert ((611534530383883 / 6250000000000000) / (624979 / 15625000) <= exp 0.8946).
    { apply le_exp_of_hi; [lra | lra | unfold exp_neg_hi; lra]. }
    apply Rmult_le_compat_r with (r := 624979 / 15625000) in H; [|lra].
    replace (611534530383883 / 6250000000000000 / (624979 / 15625000) * (624979 / 15625000))
      with (611534530383883 / 6250000000000000) in H by field. exact H.
Qed.

Lemma lnd_085 : -1.0312 <= ln (55720239 / 156250000) <= -1.0311.
Proof.
  destruct (exp_neg_bounds 0.5156 ltac:(lra)) as [_ H1].
  destruct (exp_neg_bounds 0.51555 ltac:(lra)) as [H2 _].
  pose proof (exp_pos (Ropp 0.5156)). pose proof (exp_pos (Ropp 0.51555)).
  split.
  - apply ln_ge_of_exp_le.
    replace (-1.0312) with (Ropp 0.5156 + Ropp 0.5156) by lra. rewrite exp_plus.
    apply Rle_trans with (exp_neg_hi 0.5156 * exp_neg_hi 0.5156);
      [apply Rmult_le_compat; lra | unfold exp_neg_hi; lra].
  - apply ln_le_of_le_exp; [lra|].
    replace (-1.0311) with (Ropp 0.51555 + Ropp 0.51555) by lra. rewrite exp_plus.
    apply Rle_trans with (exp_neg_lo 0.51555 * exp_neg_lo 0.51555);
      [unfold exp_neg_lo; lra |].
    assert (0 <= exp_neg_lo 0.51555) by (unfold exp_neg_lo; lra).
    apply Rmult_le_compat; lra.
Qed.

Lemma Ks_085 :
  0.0030949 <= 1930.0 * Rpower (2840344090383883 / 6250000000000000 - 611534530383883 / 6250000000000000)
    (3.0 - 1.0 / (3.816713 / (ln (611534530383883 / 6250000000000000) - ln (624979 / 15625000))))
    / 36000.0 <= 0.0030962.
Proof.
  pose proof lnratio_085 as HD. pose proof lnd_085 as Hl.
  set (D := ln (611534530383883 / 6250000000000000) - ln (624979 / 15625000)) in *.
  replace (2840344090383883 / 6250000000000000 - 611534530383883 / 6250000000000000)
    with (55720239 / 156250000) by lra.
  unfold Rpower. set (L := ln (55720239 / 156250000)) in *.
  replace (1.0 / (3.816713 / D)) with (D / 3.816713)
    by (replace 1.0 with 1 by lra; field; lra).
  set (E := (3.0 - D / 3.816713) * L).
  assert (HE : -2.8520 <= E <= -2.8516) by (unfold E; nra).
  destruct (exp_neg_bounds 0.713 ltac:(lra)) as [H1 _].
  destruct (exp_neg_bounds 0.7129 ltac:(lra)) as [_ H2].
  pose proof (exp_pos (Ropp 0.713)). pose proof (exp_pos (Ropp 0.7129)).
  assert (Hlo : exp_neg_lo 0.713 ^ 4 <= exp E).
  { apply Rle_trans with (exp (Ropp 0.713) ^ 4).
    - assert (0 <= exp_neg_lo 0.713) by (unfold exp_neg_lo; lra).
      apply pow_incr; lra.
    - replace (exp (Ropp 0.713) ^ 4) with (exp (-2.852)).
      + apply exp_le_mono; lra.
      + replace (-2.852) with (Ropp 0.713 + Ropp 0.713 + Ropp 0.713 + Ropp 0.713) by lra.
        rewrite !exp_plus; ring. }
  assert (Hhi : exp E <= exp_neg_hi 0.7129 ^ 4).
  { apply Rle_trans with (exp (Ropp 0.7129) ^ 4).
    - replace (exp (Ropp 0.7129) ^ 4) with (exp (-2.8516)).
      + apply exp_le_mono; lra.
      + replace (-2.8516) with (Ropp 0.7129 + Ropp 0.7129 + Ropp 0.7129 + Ropp 0.7129) by lra.
        rewrite !exp_plus; ring.
    - apply pow_incr; lra. }
  unfold exp_neg_lo, exp_neg_hi in *. split; lra.
Qed.

(** * Claims *)

(** C1. [Get] returns [None] exactly when one of the four checks fails on
    [(sand, clay, min(70, ompc))]; on such an input it returns [None] at once,
    with nothing computed or printed; [Get(0.7, 0.5, ompc)] is [None] for
    every [ompc]. *)
Theorem Get_None_iff_checks_fail : forall sand clay ompc DEBUG,
  (fst (Get sand clay ompc DEBUG) = Ok None <-> checks_fail sand clay (Rmin 70 ompc)) /\
  (checks_fail sand clay (Rmin 70 ompc) -> Get sand clay ompc DEBUG = (Ok None, [])) /\
  (forall o D, Get 0.7 0.5 o D = (Ok None, [])).
Proof.
  assert (Hinv : forall s c o D,
            checks_fail s c (Rmin 70 o) -> Get s c o D = (Ok None, [])).
  { intros s c o D H. unfold Get. rewrite om_clamp_Rmin.
    apply CheckArgs_false_iff in H. rewrite H. reflexivity. }
  intros sand clay ompc DEBUG; split; [|split].
  - split.
    + intros H. apply CheckArgs_false_iff.
      destruct (CheckArgs sand clay (Rmin 70 ompc)) eqn:E; [|reflexivity].
      exfalso. unfold Get in H. rewrite om_clamp_Rmin, E in H. cbn [negb] in H.
      destruct (tail_chain _ _ _) as [[[B lamda] Ks] | e]; discriminate.
    + intros H; rewrite (Hinv _ _ _ _ H); reflexivity.
  - apply Hinv.
  - intros o D; apply Hinv. unfold checks_fail; lra.
Qed.

(** C5. An organic matter above 70 gives exactly the result for 70: it is
    clamped before validation and computation, never rejected. *)
Theorem Get_clamps_organic_matter : forall sand clay ompc DEBUG,
  70 < ompc -> Get sand clay ompc DEBUG = Get sand clay 70 DEBUG.
Proof.
  intros sand clay ompc DEBUG H. unfold Get.
  rewrite (py_min_l 70.0 ompc), (py_min_l 70.0 70) by lra. reflexivity.
Qed.

Lemma Get_clamps_organic_matter_witness :
  70 < 100 /\ Get 0.2 0.3 100 false = Get 0.2 0.3 70 false.
Proof. split; [lra | apply (Get_clamps_organic_matter 0.2 0.3 100 false); lra]. Defined.

(** C7. [Get(0, 0, 0)] passes validation, both logarithm arguments are
    positive and distinct (so the divisor of [B] is non-zero), the base of
    [math.pow] is non-negative, and a four-field result is returned. *)
Theorem Get_boundary_000 : forall DEBUG,
  CheckArgs 0 0 (py_min 70.0 0) = true /\
  0 < theta33 0 0 0 /\ 0 < theta1500 0 0 0 /\ theta33 0 0 0 <> theta1500 0 0 0 /\
  ln (theta33 0 0 0) - ln (theta1500 0 0 0) <> 0 /\
  0 <= thetaS 0 0 0 - theta33 0 0 0 /\
  exists d, fst (Get 0 0 0 DEBUG) = Ok (Some d) /\
            map fst d = ["WP"; "FC"; "thetaS"; "Ks"].
Proof.
  intros DEBUG. pose proof chain_000 as (Hom & H1 & H2 & H3).
  assert (Hgap : 0 < ln (theta33 0 0 0) - ln (theta1500 0 0 0))
    by (apply ln_gap_pos; [lra | apply theta1500_le_theta33]).
  split; [exact CheckArgs_000|].
  split; [lra|]. split; [lra|]. split; [lra|]. split; [lra|]. split; [lra|].
  eexists; split; [apply Get_000_ok | reflexivity].
Qed.

(** C8. The [DEBUG] flag only adds printed lines: the returned outcome is
    the same with and without it. *)
Theorem Get_DEBUG_same_result : forall sand clay ompc,
  fst (Get sand clay ompc true) = fst (Get sand clay ompc false).
Proof.
  intros. unfold Get.
  destruct (negb _); [reflexivity|].
  destruct (tail_chain _ _ _) as [[[B lamda] Ks] | e]; reflexivity.
Qed.

(** C9. A returned dict has exactly the keys WP, FC, thetaS, Ks, in this
    insertion order, and every value is a multiple of 10^-6. *)
Theorem Get_result_keys : forall sand clay ompc DEBUG d,
  fst (Get sand clay ompc DEBUG) = Ok (Some d) ->
  map fst d = ["WP"; "FC"; "thetaS"; "Ks"] /\
  Forall (fun kv => exists z : Z, snd kv = IZR z / 10 ^ 6) d.
Proof.
  intros sand clay ompc DEBUG d H. unfold Get in H.
  destruct (negb _); [discriminate|].
  destruct (tail_chain _ _ _) as [[[B lamda] Ks] | e]; [|discriminate].
  cbn [fst] in H; injection H as <-.
  split; [reflexivity|].
  repeat constructor; apply round6_multiple.
Qed.

Lemma Get_result_keys_witness :
  map fst (code_result 0 0 (py_min 70.0 0)) = ["WP"; "FC"; "thetaS"; "Ks"] /\
  Forall (fun kv => exists z : Z, snd kv = IZR z / 10 ^ 6)
         (code_result 0 0 (py_min 70.0 0)).
Proof. apply (Get_result_keys 0 0 0 false); apply Get_000_ok. Defined.

(** C10. Once [B] has been computed (both logarithms defined, divisor of [B]
    non-zero), [B] is non-zero, [lamda = 1.0 / B] is computed without error,
    and no later step of the chain raises [ZeroDivisionError]. *)
Theorem lamda_division_safe : forall th33 th1500 thS l33 l1500 B,
  py_log th33 = Ok l33 -> py_log th1500 = Ok l1500 ->
  py_div 3.816713 (l33 - l1500) = Ok B ->
  B <> 0 /\ py_div 1.0 B = Ok (1.0 / B) /\
  tail_chain th33 th1500 thS <> Raise ZeroDivisionError.
Proof.
  intros th33 th1500 thS l33 l1500 B H33 H1500 HB.
  destruct (py_div_ok_inv _ _ _ HB) as [Hd HBeq].
  assert (HB0 : B <> 0).
  { rewrite HBeq; unfold Rdiv; apply Rmult_integral_contrapositive; split;
      [lra | apply Rinv_neq_0_compat; exact Hd]. }
  split; [exact HB0|]. split; [apply py_div_ok; exact HB0|].
  unfold tail_chain; rewrite H33, H1500; cbn [bind]; rewrite HB; cbn [bind].
  rewrite py_div_ok by exact HB0; cbn [bind].
  destruct (py_pow (thS - th33) (3.0 - 1.0 / B)) as [p | e] eqn:Hp; cbn [bind].
  - rewrite py_div_ok by lra; discriminate.
  - intros He; injection He as ->. apply (py_pow_not_zerodiv _ _ Hp).
Qed.

Lemma lamda_division_safe_witness :
  3.816713 / (ln 0.5 - ln 0.25) <> 0 /\
  py_div 1.0 (3.816713 / (ln 0.5 - ln 0.25)) = Ok (1.0 / (3.816713 / (ln 0.5 - ln 0.25))) /\
  tail_chain 0.5 0.25 1 <> Raise ZeroDivisionError.
Proof.
  apply (lamda_division_safe 0.5 0.25 1 (ln 0.5) (ln 0.25)).
  - apply py_log_ok; lra.
  - apply py_log_ok; lra.
  - apply py_div_ok. pose proof (ln_gap_pos 0.5 0.25); lra.
Defined.

(** C2. On a valid input where the reference chain of spec section 4.1 is
    defined (positive logarithm arguments, non-negative base of the power),
    [Get] returns exactly the reference chain evaluated with
    [om = min(70, ompc)], each of the four values rounded to 6 decimals. *)
Theorem Get_refines_reference : forall sand clay ompc DEBUG,
  ~ checks_fail sand clay (Reference.om ompc) ->
  0 < Reference.theta33 sand clay (Reference.om ompc) ->
  0 < Reference.theta1500 sand clay (Reference.om ompc) ->
  0 <= Reference.thetaS sand clay (Reference.om ompc)
       - Reference.theta33 sand clay (Reference.om ompc) ->
  fst (Get sand clay ompc DEBUG) = Ok (Some (Reference.result sand clay ompc)).
Proof.
  intros sand clay ompc DEBUG Hv H33 H15 HS.
  unfold Reference.result, Reference.Ks, Reference.lambda, Reference.B, Reference.rpow;
    cbv zeta.
  assert (Hom : py_min 70.0 ompc = Reference.om ompc) by apply om_clamp_Rmin.
  set (om := Reference.om ompc) in *.
  rewrite <- theta33_reference, <- theta1500_reference, <- thetaS_reference in *.
  assert (HC : CheckArgs sand clay om = true).
  { destruct (CheckArgs sand clay om) eqn:E; [reflexivity|].
    apply CheckArgs_false_iff in E; contradiction. }
  unfold Get; rewrite Hom, HC; cbn [negb].
  assert (Hle := theta1500_le_theta33 sand clay om).
  replace 1.0 with 1 by lra; replace 3.0 with 3 by lra;
    replace 1930.0 with 1930 by lra; replace 36000.0 with 36000 by lra.
  destruct (Rle_lt_or_eq_dec _ _ HS) as [Hpos | Hzero].
  - replace 1 with 1.0 by lra; replace 3 with 3.0 by lra;
      replace 1930 with 1930.0 by lra; replace 36000 with 36000.0 by lra.
    rewrite tail_chain_pos by lra.
    destruct (Req_EM_T _ 0) as [E | _]; [lra|].
    replace 1.0 with 1 by lra; replace 3.0 with 3 by lra;
      replace 1930.0 with 1930 by lra; replace 36000.0 with 36000 by lra.
    reflexivity.
  - assert (Hl3 := lamda_lt_3 sand clay om H15).
    replace 1 with 1.0 by lra; replace 3 with 3.0 by lra;
      replace 1930 with 1930.0 by lra; replace 36000 with 36000.0 by lra.
    rewrite tail_chain_zero by lra.
    destruct (Req_EM_T _ 0) as [_ | E]; [|lra].
    reflexivity.
Qed.

Lemma Get_refines_reference_witness :
  fst (Get 0 0 0 false) = Ok (Some (Reference.result 0 0 0)).
Proof.
  pose proof chain_000 as (Hom & H1 & H2 & H3).
  assert (Hom' : Reference.om 0 = 0) by (unfold Reference.om; apply Rmin_right; lra).
  apply Get_refines_reference; rewrite Hom';
    rewrite <- ?theta33_reference, <- ?theta1500_reference, <- ?thetaS_reference.
  - unfold checks_fail; lra.
  - lra.
  - lra.
  - lra.
Defined.

(** C3, as stated: in every result, [WP <= 0.8 * FC].  It fails at
    [(0, 1, 0.2429)]: [theta1500 = 0.8 * theta33] before rounding, but
    rounding gives [WP = 0.480002 > 0.8 * FC = 0.8 * 0.600002]. *)
Lemma WP_above_08_FC_after_rounding :
  exists d, fst (Get 0 1 0.2429 false) = Ok (Some d) /\
  lookup "WP" d = Some 0.480002 /\ lookup "FC" d = Some 0.600002 /\
  0.80 * 0.600002 < 0.480002.
Proof.
  pose proof chain_0_1_02429 as (Hom & H15 & H33 & HS).
  exists (code_result 0 1 (py_min 70.0 0.2429)).
  split; [apply Get_ok; rewrite Hom; [apply CheckArgs_true_iff | |]; lra|].
  unfold code_result; cbv [lookup String.eqb Ascii.eqb Bool.eqb]; rewrite Hom, H15, H33.
  rewrite (round6_up _ 480001) by (simpl; lra).
  rewrite (round6_exact _ 600002) by (simpl; lra).
  rewrite plus_IZR.
  split; [f_equal; simpl pow; lra|]. split; [f_equal; simpl pow; lra|]. lra.
Qed.

(** C3, amended. In every result the step-5 value [theta1500] is at most
    [0.8 * theta33], it is the value rounded into WP and the one [B] is
    computed from (as the DEBUG printout shows); after rounding to 6
    decimals, [WP <= 0.8 * FC + 10^-6]. *)
Theorem Get_WP_reconstrained : forall sand clay ompc DEBUG d,
  fst (Get sand clay ompc DEBUG) = Ok (Some d) ->
  theta1500 sand clay (py_min 70.0 ompc) <= 0.80 * theta33 sand clay (py_min 70.0 ompc) /\
  lookup "WP" d = Some (round6 (theta1500 sand clay (py_min 70.0 ompc))) /\
  lookup "FC" d = Some (round6 (theta33 sand clay (py_min 70.0 ompc))) /\
  round6 (theta1500 sand clay (py_min 70.0 ompc))
    <= 0.80 * round6 (theta33 sand clay (py_min 70.0 ompc)) + 1 / 10 ^ 6 /\
  In ("B", 3.816713 / (ln (theta33 sand clay (py_min 70.0 ompc))
                       - ln (theta1500 sand clay (py_min 70.0 ompc))))
     (snd (Get sand clay ompc true)).
Proof.
  intros sand clay ompc DEBUG d H. unfold Get in *.
  destruct (negb _); [discriminate|].
  destruct (tail_chain _ _ _) as [[[B lamda] Ks] | e] eqn:Ht; [|discriminate].
  cbn [fst] in H; injection H as <-.
  assert (Hle := theta1500_le_theta33 sand clay (py_min 70.0 ompc)).
  split; [exact Hle|]. split; [reflexivity|]. split; [reflexivity|].
  split.
  - pose proof (round6_near (theta1500 sand clay (py_min 70.0 ompc))).
    pose proof (round6_near (theta33 sand clay (py_min 70.0 ompc))).
    simpl pow in *; lra.
  - rewrite <- (tail_chain_B _ _ _ _ _ _ Ht). cbn [snd].
    do 10 right; left; reflexivity.
Qed.

Lemma Get_WP_reconstrained_witness :
  theta1500 0 0 (py_min 70.0 0) <= 0.80 * theta33 0 0 (py_min 70.0 0) /\
  lookup "WP" (code_result 0 0 (py_min 70.0 0)) = Some (round6 (theta1500 0 0 (py_min 70.0 0))) /\
  lookup "FC" (code_result 0 0 (py_min 70.0 0)) = Some (round6 (theta33 0 0 (py_min 70.0 0))) /\
  round6 (theta1500 0 0 (py_min 70.0 0))
    <= 0.80 * round6 (theta33 0 0 (py_min 70.0 0)) + 1 / 10 ^ 6 /\
  In ("B", 3.816713 / (ln (theta33 0 0 (py_min 70.0 0)) - ln (theta1500 0 0 (py_min 70.0 0))))
     (snd (Get 0 0 0 true)).
Proof. apply (Get_WP_reconstrained 0 0 0 false); apply Get_000_ok. Defined.

(** C4, as stated: in every result [WP >= 0.01].  It fails at
    [(0, 0.7, 51)]: step 5 lowers [theta1500] to [0.8 * theta33], below
    0.01, and the chain still returns a result. *)
Lemma WP_below_001 :
  exists d, fst (Get 0 0.7 51 false) = Ok (Some d) /\
  exists wp, lookup "WP" d = Some wp /\ wp < 0.01.
Proof.
  pose proof chain_0_07_51 as (Hom & H15 & H33 & HS).
  exists (code_result 0 0.7 (py_min 70.0 51)).
  split; [apply Get_ok; rewrite Hom; [apply CheckArgs_true_iff | |]; lra|].
  eexists; split; [unfold code_result; cbv [lookup String.eqb Ascii.eqb Bool.eqb]; reflexivity|].
  rewrite Hom, H15.
  assert (round6 (169278027 / 31250000000) <= IZR 5417 / 10 ^ 6)
    by (apply round6_le; simpl; lra).
  simpl pow in *; lra.
Qed.

(** C4, amended. In every result [FC <= 0.80], and
    [WP >= min(0.01, round(0.8 * theta33, 6))]: [WP >= 0.01] holds unless
    step 5 lowers [theta1500] to [0.8 * theta33]. *)
Theorem Get_FC_WP_bounds : forall sand clay ompc DEBUG d,
  fst (Get sand clay ompc DEBUG) = Ok (Some d) ->
  exists wp fc, lookup "WP" d = Some wp /\ lookup "FC" d = Some fc /\
    fc <= 0.80 /\
    Rmin 0.01 (round6 (0.80 * theta33 sand clay (py_min 70.0 ompc))) <= wp.
Proof.
  intros sand clay ompc DEBUG d H. unfold Get in H.
  destruct (negb _); [discriminate|].
  destruct (tail_chain _ _ _) as [[[B lamda] Ks] | e]; [|discriminate].
  cbn [fst] in H; injection H as <-.
  set (om := py_min 70.0 ompc).
  eexists; eexists; split; [reflexivity|]; split; [reflexivity|]; split.
  - assert (round6 (theta33 sand clay om) <= IZR 800000 / 10 ^ 6).
    { apply round6_le. pose proof (theta33_le_080 sand clay om). simpl; lra. }
    simpl pow in *; lra.
  - assert (E : theta1500 sand clay om = theta1500_0 sand clay om \/
                theta1500 sand clay om = 0.80 * theta33 sand clay om)
      by exact (py_min_cases _ _).
    destruct E as [E | E]; rewrite E.
    + assert (IZR 10000 / 10 ^ 6 <= round6 (theta1500_0 sand clay om)).
      { apply round6_ge. pose proof (theta1500_0_ge sand clay om). simpl; lra. }
      pose proof (Rmin_l 0.01 (round6 (0.80 * theta33 sand clay om))).
      simpl pow in *; lra.
    + apply Rmin_r.
Qed.

Lemma Get_FC_WP_bounds_witness :
  exists wp fc, lookup "WP" (code_result 0 0 (py_min 70.0 0)) = Some wp /\
    lookup "FC" (code_result 0 0 (py_min 70.0 0)) = Some fc /\ fc <= 0.80 /\
    Rmin 0.01 (round6 (0.80 * theta33 0 0 (py_min 70.0 0))) <= wp.
Proof. apply (Get_FC_WP_bounds 0 0 0 false); apply Get_000_ok. Defined.

(** C6. [Get(0.85, 0.04, 2.08)] returns a result, and each field passes the
    test's [AreClose] against the expected value: WP against 0.0400, FC
    against 0.09785 and thetaS against 0.4545 with threshold [1e-4], Ks
    against 0.003096 with threshold [1e-3]. *)
Theorem Get_scenario_sand : forall DEBUG,
  exists d, fst (Get 0.85 0.04 2.08 DEBUG) = Ok (Some d) /\
  exists wp fc ts ks,
    d = [("WP", wp); ("FC", fc); ("thetaS", ts); ("Ks", ks)] /\
    AreClose 0.0400 wp 0.0001 /\ AreClose 0.09785 fc 0.0001 /\
    AreClose 0.4545 ts 0.0001 /\ AreClose 0.003096 ks 0.001.
Proof.
  intros DEBUG.
  pose proof chain_085 as (Hom & H15 & H33 & HS).
  exists (code_result 0.85 0.04 (py_min 70.0 2.08)).
  split; [apply Get_ok; rewrite Hom; [apply CheckArgs_true_iff | |]; lra|].
  do 4 eexists; split; [unfold code_result; reflexivity|].
  rewrite Hom, H15, H33, HS.
  rewrite (round6_up _ 39998) by (simpl; lra).
  rewrite (round6_up _ 97845) by (simpl; lra).
  rewrite (round6_exact _ 454455) by (simpl; lra).
  rewrite !plus_IZR.
  pose proof Ks_085 as HK.
  pose proof (round6_near (1930.0 * Rpower (2840344090383883 / 6250000000000000
    - 611534530383883 / 6250000000000000)
    (3.0 - 1.0 / (3.816713 / (ln (611534530383883 / 6250000000000000)
                               - ln (624979 / 15625000)))) / 36000.0)) as HR.
  simpl pow in *.
  split; [|split; [|split]]; apply AreClose_rel; try lra; apply Rabs_le; split; lra.
Qed.

(** * Further properties of [SWCharEst.Get] *)

(** ** Helper lemmas *)

Lemma theta1500_pos_of_theta33 sand clay om :
  0 < theta33 sand clay om -> 0 < theta1500 sand clay om.
Proof.
  intros H.
  destruct (py_min_cases (theta1500_0 sand clay om) (0.80 * theta33 sand clay om)) as [E | E];
    unfold theta1500; rewrite E; [pose proof (theta1500_0_ge sand clay om) |]; lra.
Qed.

Lemma theta33_pos_of_theta1500 sand clay om :
  0 < theta1500 sand clay om -> 0 < theta33 sand clay om.
Proof. intros H. pose proof (theta1500_le_theta33 sand clay om). lra. Qed.

Lemma exp_76_gt_80 : 80 < exp 7.6.
Proof.
  replace 7.6 with (0.95 + 0.95 + 0.95 + 0.95 + 0.95 + 0.95 + 0.95 + 0.95) by lra.
  rewrite !exp_plus.
  pose proof (exp_ineq1_le 0.95) as H.
  assert (H2 : 3.8 <= exp 0.95 * exp 0.95) by nra.
  assert (H4 : 14.4 <= exp 0.95 * exp 0.95 * (exp 0.95 * exp 0.95)) by nra.
  nra.
Qed.

(** [lamda] lies strictly between 0 and 2 once [theta1500 > 0]. *)
Lemma lamda_bounds sand clay om :
  0 < theta1500 sand clay om ->
  0 < 1.0 / (3.816713 / (ln (theta33 sand clay om) - ln (theta1500 sand clay om))) < 2.
Proof.
  intros H1.
  set (t33 := theta33 sand clay om) in *; set (t15 := theta1500 sand clay om) in *.
  assert (Hle : t15 <= 0.80 * t33) by apply theta1500_le_theta33.
  assert (H33 : t33 <= 0.80) by apply theta33_le_080.
  assert (Hr : t33 <= 80 * t15).
  { assert (E' : t15 = theta1500_0 sand clay om \/ t15 = 0.80 * t33)
      by exact (py_min_cases _ _).
    destruct E' as [E | E].
    - pose proof (theta1500_0_ge sand clay om). lra.
    - lra. }
  assert (Hgap := ln_gap_pos t33 t15 H1 Hle).
  assert (Hln : ln t33 <= ln 80 + ln t15).
  { rewrite <- ln_mult by lra.
    destruct (Rle_lt_or_eq_dec _ _ Hr) as [Hlt | ->];
      [left; apply ln_increasing; lra | right; reflexivity]. }
  assert (H80 : ln 80 < 7.6).
  { rewrite <- (ln_exp 7.6). apply ln_increasing; [lra | apply exp_76_gt_80]. }
  replace (1.0 / (3.816713 / (ln t33 - ln t15))) with ((ln t33 - ln t15) / 3.816713)
    by (replace 1.0 with 1 by lra; field; lra).
  split.
  - unfold Rdiv; apply Rmult_lt_0_compat; [lra | apply Rinv_0_lt_compat; lra].
  - apply Rmult_lt_reg_r with 3.816713; [lra|].
    unfold Rdiv; rewrite Rmult_assoc, Rinv_l by lra. lra.
Qed.

(** [tail_chain] on the values of the chain: [math.log] fails when
    [theta33 <= 0]; otherwise only [math.pow] can fail. *)
Lemma tail_chain_theta33_nonpos sand clay om :
  theta33 sand clay om <= 0 ->
  tail_chain (theta33 sand clay om) (theta1500 sand clay om) (thetaS sand clay om)
  = Raise ValueError.
Proof.
  intros H. unfold tail_chain, py_log at 1.
  destruct (Rle_dec (theta33 sand clay om) 0); [reflexivity | lra].
Qed.

Lemma tail_chain_theta33_pos sand clay om :
  0 < theta33 sand clay om ->
  tail_chain (theta33 sand clay om) (theta1500 sand clay om) (thetaS sand clay om) =
  (let B := 3.816713 / (ln (theta33 sand clay om) - ln (theta1500 sand clay om)) in
   p <- py_pow (thetaS sand clay om - theta33 sand clay om) (3.0 - 1.0 / B) ;;
   Ok (B, 1.0 / B, 1930.0 * p / 36000.0)).
Proof.
  intros H33.
  pose proof (theta1500_pos_of_theta33 sand clay om H33) as H15.
  pose proof (theta1500_le_theta33 sand clay om) as Hle.
  pose proof (ln_gap_pos _ _ H15 Hle). pose proof (B_pos _ _ H15 Hle).
  unfold tail_chain.
  rewrite (py_log_ok (theta33 sand clay om)), (py_log_ok (theta1500 sand clay om)) by lra;
    cbn [bind].
  rewrite py_div_ok by lra; cbn [bind].
  rewrite py_div_ok by lra; cbn [bind].
  cbv zeta. destruct (py_pow _ _); cbn [bind]; [|reflexivity].
  rewrite py_div_ok by lra; reflexivity.
Qed.

(** [math.pow] on a positive exponent raises exactly on a negative base
    with a non-integral exponent. *)
Lemma py_pow_raise_iff x y e :
  0 < y ->
  (py_pow x y = Raise e <-> e = ValueError /\ x < 0 /\ IZR (Int_part y) <> y).
Proof.
  intros Hy. unfold py_pow.
  destruct (Rlt_dec 0 x).
  - split; [discriminate | lra].
  - destruct (Req_EM_T x 0).
    + destruct (Rlt_dec y 0); [lra|].
      destruct (Req_EM_T y 0); (split; [discriminate | lra]).
    + destruct (Req_EM_T (IZR (Int_part y)) y).
      * split; [discriminate | tauto].
      * split; [intros H; injection H as <-; repeat split; auto; lra|].
        intros (-> & _ & _); reflexivity.
Qed.

Lemma Int_part_between_1_3 y : 1 < y < 3 -> IZR (Int_part y) = y -> Int_part y = 2%Z.
Proof.
  intros Hy E.
  assert (IZR 1 < IZR (Int_part y) < IZR 3) by (rewrite E; simpl; lra).
  destruct H as [Ha Hb]. apply lt_IZR in Ha. apply lt_IZR in Hb. lia.
Qed.

Lemma py_pow_nonneg x y p : 1 < y < 3 -> py_pow x y = Ok p -> 0 <= p.
Proof.
  intros Hy. unfold py_pow.
  destruct (Rlt_dec 0 x).
  - intros H; injection H as <-. unfold Rpower. left; apply exp_pos.
  - destruct (Req_EM_T x 0).
    + destruct (Rlt_dec y 0); [discriminate|].
      destruct (Req_EM_T y 0); intros H; injection H as <-; lra.
    + destruct (Req_EM_T (IZR (Int_part y)) y) as [E | E]; [|discriminate].
      intros H; injection H as <-.
      rewrite (Int_part_between_1_3 y Hy E). simpl. nra.
Qed.

Lemma round6_mono x y : x <= y -> round6 x <= round6 y.
Proof.
  intros Hxy.
  destruct (Req_dec x y) as [-> | Hne]; [lra|].
  assert (Hlt : x * 10 ^ 6 < y * 10 ^ 6) by (simpl; lra).
  pose proof (Int_part_bounds (x * 10 ^ 6)) as Bx.
  pose proof (Int_part_bounds (y * 10 ^ 6)) as By.
  pose proof (round6_cases x) as Cx; pose proof (round6_cases y) as Cy; cbv zeta in Cx, Cy.
  set (n := Int_part (x * 10 ^ 6)) in *; set (m := Int_part (y * 10 ^ 6)) in *.
  assert (Hnm : (n <= m)%Z).
  { assert (IZR n < IZR m + 1) by lra.
    rewrite <- plus_IZR in H. apply lt_IZR in H. lia. }
  assert (Hp : 0 < 10 ^ 6) by (simpl; lra).
  destruct Cx as [[-> Hx] | [-> Hx]]; destruct Cy as [[-> Hy] | [-> Hy]];
    apply Rmult_le_compat_r; try (left; apply Rinv_0_lt_compat; exact Hp);
    apply IZR_le.
  - exact Hnm.
  - lia.
  - destruct (Z.eq_dec n m) as [<- | Hneq]; [lra | lia].
  - lia.
Qed.

Lemma round6_nonneg x : 0 <= x -> 0 <= round6 x.
Proof.
  intros H. pose proof (round6_ge x 0) as G.
  replace (IZR 0 / 10 ^ 6) with 0 in G by (simpl; field). auto.
Qed.

Lemma Get_checked sand clay ompc DEBUG :
  CheckArgs sand clay (py_min 70.0 ompc) = true ->
  fst (Get sand clay ompc DEBUG) =
  match tail_chain (theta33 sand clay (py_min 70.0 ompc))
          (theta1500 sand clay (py_min 70.0 ompc)) (thetaS sand clay (py_min 70.0 ompc)) with
  | Raise e => Raise e
  | Ok (B, lamda, Ks) =>
      Ok (Some [("WP", round6 (theta1500 sand clay (py_min 70.0 ompc)));
                ("FC", round6 (theta33 sand clay (py_min 70.0 ompc)));
                ("thetaS", round6 (thetaS sand clay (py_min 70.0 ompc)));
                ("Ks", round6 Ks)])
  end.
Proof.
  intros HC. unfold Get. rewrite HC; cbn [negb].
  destruct (tail_chain _ _ _) as [[[B lamda] Ks] | e]; reflexivity.
Qed.

(** The chain at [sand = 0, clay = 1, om = 50]: [theta33 < 0]. *)
Lemma chain_0_1_50 :
  py_min 70.0 50 = 50 /\ theta33 0 1 50 = -21605253 / 250000000.
Proof.
  split; [eval_minmax; reflexivity|].
  unfold theta33, theta33t; eval_minmax; lra.
Qed.

(** The chain at [sand = 0, clay = 1, om = 70]: [theta33 > 0] and
    [thetaS < theta33]. *)
Lemma chain_0_1_70 :
  py_min 70.0 70 = 70 /\
  theta1500 0 1 70 = 149 / 12500 /\
  theta33 0 1 70 = 23975227 / 250000000 /\
  thetaS 0 1 70 - theta33 0 1 70 = -56671 / 125000.
Proof.
  assert (H0 : theta1500_0 0 1 70 = 149 / 12500)
    by (unfold theta1500_0, theta1500t; eval_minmax; lra).
  assert (H33 : theta33 0 1 70 = 23975227 / 250000000)
    by (unfold theta33, theta33t; eval_minmax; lra).
  split; [unfold py_min, py_lt; destruct (Rlt_dec 70 70.0); lra|].
  split; [unfold theta1500; rewrite H0, H33; eval_minmax; lra|].
  split; [exact H33|].
  unfold thetaS, thetaS33, thetaS33t; lra.
Qed.

(** ** Properties *)

(** [Get] never raises [ZeroDivisionError]: both logarithms are defined
    only when [theta1500 <= 0.8 * theta33] makes their difference positive,
    so [B] and [lamda] are computed from non-zero divisors. *)
Theorem Get_never_ZeroDivisionError : forall sand clay ompc DEBUG,
  fst (Get sand clay ompc DEBUG) <> Raise ZeroDivisionError.
Proof.
  intros sand clay ompc DEBUG.
  destruct (CheckArgs sand clay (py_min 70.0 ompc)) eqn:HC.
  - rewrite (Get_checked _ _ _ _ HC).
    set (om := py_min 70.0 ompc).
    destruct (Rle_dec (theta33 sand clay om) 0) as [H | H].
    + rewrite tail_chain_theta33_nonpos by exact H. discriminate.
    + rewrite tail_chain_theta33_pos by lra. cbv zeta.
      destruct (py_pow _ _) as [p | e] eqn:Ep; cbn [bind]; [discriminate|].
      intros He; injection He as ->. apply (py_pow_not_zerodiv _ _ Ep).
  - unfold Get. rewrite HC. discriminate.
Qed.

(** On an input that passes the checks, [Get] raises exactly when
    [theta33 <= 0] ([math.log] domain error), or when [thetaS < theta33] and
    the exponent [3 - lamda] is not an integer ([math.pow] domain error);
    the exception is always [ValueError]. *)
Theorem Get_raises_iff : forall sand clay ompc DEBUG e,
  CheckArgs sand clay (py_min 70.0 ompc) = true ->
  (fst (Get sand clay ompc DEBUG) = Raise e <->
   e = ValueError /\
   (theta33 sand clay (py_min 70.0 ompc) <= 0 \/
    (0 < theta33 sand clay (py_min 70.0 ompc) /\
     thetaS sand clay (py_min 70.0 ompc) - theta33 sand clay (py_min 70.0 ompc) < 0 /\
     IZR (Int_part (3.0 - 1.0 / (3.816713 / (ln (theta33 sand clay (py_min 70.0 ompc))
                                             - ln (theta1500 sand clay (py_min 70.0 ompc))))))
     <> 3.0 - 1.0 / (3.816713 / (ln (theta33 sand clay (py_min 70.0 ompc))
                                 - ln (theta1500 sand clay (py_min 70.0 ompc))))))).
Proof.
  intros sand clay ompc DEBUG e HC.
  rewrite (Get_checked _ _ _ _ HC).
  set (om := py_min 70.0 ompc).
  destruct (Rle_dec (theta33 sand clay om) 0) as [H | H].
  - rewrite tail_chain_theta33_nonpos by exact H.
    split; [intros E; injection E as <-; auto | intros [-> _]; reflexivity].
  - rewrite tail_chain_theta33_pos by lra. cbv zeta.
    pose proof (lamda_bounds sand clay om
                  (theta1500_pos_of_theta33 sand clay om ltac:(lra))) as HL.
    set (lam := 1.0 / (3.816713 / (ln (theta33 sand clay om) - ln (theta1500 sand clay om))))
      in *.
    assert (Hy : 0 < 3.0 - lam) by lra.
    pose proof (py_pow_raise_iff (thetaS sand clay om - theta33 sand clay om) _ e Hy) as Hp.
    destruct (py_pow _ _) as [p | e'] eqn:Ep; cbn [bind].
    + split; [discriminate|].
      intros [He [H' | (_ & Hd & Hi)]]; [lra|].
      pose proof (proj2 Hp (conj He (conj Hd Hi))). discriminate.
    + split.
      * intros E; injection E as <-.
        destruct (proj1 Hp eq_refl) as (He & Hd & Hi). split; [exact He|].
        right; repeat split; auto; lra.
      * intros [He [H' | (_ & Hd & Hi)]]; [lra|].
        injection (proj2 Hp (conj He (conj Hd Hi))) as ->. reflexivity.
Qed.

Lemma Get_raises_iff_witness :
  CheckArgs 0 1 (py_min 70.0 50) = true /\
  (fst (Get 0 1 50 false) = Raise ValueError <->
   ValueError = ValueError /\
   (theta33 0 1 (py_min 70.0 50) <= 0 \/
    (0 < theta33 0 1 (py_min 70.0 50) /\
     thetaS 0 1 (py_min 70.0 50) - theta33 0 1 (py_min 70.0 50) < 0 /\
     IZR (Int_part (3.0 - 1.0 / (3.816713 / (ln (theta33 0 1 (py_min 70.0 50))
                                             - ln (theta1500 0 1 (py_min 70.0 50))))))
     <> 3.0 - 1.0 / (3.816713 / (ln (theta33 0 1 (py_min 70.0 50))
                                 - ln (theta1500 0 1 (py_min 70.0 50))))))).
Proof.
  assert (HC : CheckArgs 0 1 (py_min 70.0 50) = true).
  { destruct chain_0_1_50 as [-> _]; apply CheckArgs_true_iff; lra. }
  split; [exact HC | apply (Get_raises_iff 0 1 50 false ValueError HC)].
Defined.

(** Passing the checks does not guarantee a result: [Get(0, 1, 50)] raises
    [ValueError] in [math.log] ([theta33 < 0]), and [Get(0, 1, 70)] raises
    [ValueError] in [math.pow] ([theta33 > 0], negative base
    [thetaS - theta33], exponent [3 - lamda] not an integer). *)
Theorem Get_accepted_inputs_raise : forall DEBUG,
  CheckArgs 0 1 (py_min 70.0 50) = true /\
  theta33 0 1 (py_min 70.0 50) < 0 /\
  fst (Get 0 1 50 DEBUG) = Raise ValueError /\
  CheckArgs 0 1 (py_min 70.0 70) = true /\
  0 < theta33 0 1 (py_min 70.0 70) /\
  thetaS 0 1 (py_min 70.0 70) - theta33 0 1 (py_min 70.0 70) < 0 /\
  fst (Get 0 1 70 DEBUG) = Raise ValueError.
Proof.
  intros DEBUG.
  destruct chain_0_1_50 as [Hom50 H50].
  destruct chain_0_1_70 as (Hom70 & H15 & H33 & Hd).
  assert (HC50 : CheckArgs 0 1 (py_min 70.0 50) = true)
    by (rewrite Hom50; apply CheckArgs_true_iff; lra).
  assert (HC70 : CheckArgs 0 1 (py_min 70.0 70) = true)
    by (rewrite Hom70; apply CheckArgs_true_iff; lra).
  split; [exact HC50|]. split; [rewrite Hom50, H50; lra|].
  split.
  { rewrite (Get_checked _ _ _ _ HC50), tail_chain_theta33_nonpos
      by (rewrite Hom50, H50; lra). reflexivity. }
  split; [exact HC70|].
  rewrite (Get_checked _ _ _ _ HC70). rewrite Hom70 in *.
  split; [rewrite H33; lra|]. split; [lra|].
  rewrite tail_chain_theta33_pos by (rewrite H33; lra).
  cbv zeta. rewrite Hd, H15, H33.
  (* 0 < lamda < 1, so 2 < 3 - lamda < 3 *)
  assert (HD : 0 < ln (23975227 / 250000000) - ln (149 / 12500) <= 3.8).
  { split.
    - apply ln_gap_pos; lra.
    - apply ln_diff_le; [lra | lra |].
      assert (E : exp 3.8 = exp 1.9 * exp 1.9) by (rewrite <- exp_plus; f_equal; lra).
      pose proof (exp_ineq1_le 1.9). nra. }
  set (D := ln (23975227 / 250000000) - ln (149 / 12500)) in *.
  replace (1.0 / (3.816713 / D)) with (D / 3.816713)
    by (replace 1.0 with 1 by lra; field; lra).
  assert (Hy : 2 < 3.0 - D / 3.816713 < 3).
  { split; [|unfold Rdiv; assert (0 < D * / 3.816713) by
               (apply Rmult_lt_0_compat; [lra | apply Rinv_0_lt_compat; lra]); lra].
    apply Rmult_lt_reg_r with 3.816713; [lra|].
    unfold Rdiv; rewrite Rmult_minus_distr_r, Rmult_assoc, Rinv_l by lra. lra. }
  assert (Hi : IZR (Int_part (3.0 - D / 3.816713)) <> 3.0 - D / 3.816713).
  { intros E. pose proof (Int_part_between_1_3 (3.0 - D / 3.816713) ltac:(lra) E) as E2.
    rewrite E2 in E. lra. }
  unfold py_pow.
  destruct (Rlt_dec 0 (-56671 / 125000)); [lra|].
  destruct (Req_EM_T (-56671 / 125000) 0); [lra|].
  destruct (Req_EM_T _ _); [contradiction | reflexivity].
Qed.

(** In every result, [0 <= WP <= FC] and [Ks >= 0]: rounding keeps the
    order of [theta1500 <= 0.8 * theta33], and the base of [math.pow] is
    either positive, zero, or negative with the even exponent 2. *)
Theorem Get_result_ranges : forall sand clay ompc DEBUG d,
  fst (Get sand clay ompc DEBUG) = Ok (Some d) ->
  exists wp fc ts ks,
    d = [("WP", wp); ("FC", fc); ("thetaS", ts); ("Ks", ks)] /\
    0 <= wp <= fc /\ 0 <= ks.
Proof.
  intros sand clay ompc DEBUG d H.
  destruct (CheckArgs sand clay (py_min 70.0 ompc)) eqn:HC;
    [|unfold Get in H; rewrite HC in H; discriminate].
  rewrite (Get_checked _ _ _ _ HC) in H.
  set (om := py_min 70.0 ompc) in *.
  destruct (Rle_dec (theta33 sand clay om) 0) as [H33 | H33];
    [rewrite tail_chain_theta33_nonpos in H by exact H33; discriminate|].
  rewrite tail_chain_theta33_pos in H by lra. cbv zeta in H.
  pose proof (theta1500_pos_of_theta33 sand clay om ltac:(lra)) as H15.
  pose proof (lamda_bounds sand clay om H15) as HL.
  destruct (py_pow _ _) as [p | e] eqn:Ep; cbn [bind] in H; [|discriminate].
  injection H as <-.
  do 4 eexists; split; [reflexivity|].
  pose proof (theta1500_le_theta33 sand clay om).
  split; [split|].
  - apply round6_nonneg; lra.
  - apply round6_mono; lra.
  - apply round6_nonneg.
    assert (0 <= p) by (revert Ep; apply py_pow_nonneg; lra). lra.
Qed.

Lemma Get_result_ranges_witness :
  exists wp fc ts ks,
    code_result 0 0 (py_min 70.0 0) = [("WP", wp); ("FC", fc); ("thetaS", ts); ("Ks", ks)] /\
    0 <= wp <= fc /\ 0 <= ks.
Proof. apply (Get_result_ranges 0 0 0 false); apply Get_000_ok. Defined.

(** [Get] prints only when [DEBUG] is set and it returns a result: it
    prints nothing when it returns [None] or raises. *)
Theorem Get_prints_only_on_success : forall sand clay ompc DEBUG,
  snd (Get sand clay ompc DEBUG) <> [] <->
  DEBUG = true /\ exists d, fst (Get sand clay ompc DEBUG) = Ok (Some d).
Proof.
  intros sand clay ompc DEBUG. unfold Get.
  destruct (negb _); cbn [fst snd].
  - split; [congruence | intros (_ & d & H); discriminate].
  - destruct (tail_chain _ _ _) as [[[B lamda] Ks] | e]; cbn [fst snd].
    + destruct DEBUG.
      * split; [intros _; split; [reflexivity | eexists; reflexivity] | discriminate].
      * split; [congruence | intros [H _]; discriminate].
    + split; [congruence | intros (_ & d & H); discriminate].
Qed.

(** With [DEBUG], the printed [om] is [min(70, ompc)], and each returned
    field is the 6-decimal rounding of the value printed for it:
    WP of [theta1500], FC of [theta33], thetaS of [thetaS], Ks of [Ks]. *)
Theorem Get_results_round_printed : forall sand clay ompc d,
  fst (Get sand clay ompc true) = Ok (Some d) ->
  lookup "om" (snd (Get sand clay ompc true)) = Some (Rmin 70 ompc) /\
  lookup "WP" d = option_map round6 (lookup "theta1500" (snd (Get sand clay ompc true))) /\
  lookup "FC" d = option_map round6 (lookup "theta33" (snd (Get sand clay ompc true))) /\
  lookup "thetaS" d = option_map round6 (lookup "thetaS" (snd (Get sand clay ompc true))) /\
  lookup "Ks" d = option_map round6 (lookup "Ks" (snd (Get sand clay ompc true))).
Proof.
  intros sand clay ompc d H. unfold Get in *.
  destruct (negb _); [discriminate|].
  destruct (tail_chain _ _ _) as [[[B lamda] Ks] | e]; [|discriminate].
  cbn [fst snd] in *. injection H as <-.
  cbv [lookup String.eqb Ascii.eqb Bool.eqb option_map].
  rewrite om_clamp_Rmin. repeat split.
Qed.

Lemma Get_results_round_printed_witness :
  lookup "om" (snd (Get 0 0 0 true)) = Some (Rmin 70 0) /\
  lookup "WP" (code_result 0 0 (py_min 70.0 0))
    = option_map round6 (lookup "theta1500" (snd (Get 0 0 0 true))) /\
  lookup "FC" (code_result 0 0 (py_min 70.0 0))
    = option_map round6 (lookup "theta33" (snd (Get 0 0 0 true))) /\
  lookup "thetaS" (code_result 0 0 (py_min 70.0 0))
    = option_map round6 (lookup "thetaS" (snd (Get 0 0 0 true))) /\
  lookup "Ks" (code_result 0 0 (py_min 70.0 0))
    = option_map round6 (lookup "Ks" (snd (Get 0 0 0 true))).
Proof. apply (Get_results_round_printed 0 0 0); apply Get_000_ok. Defined.

(** When [Get] returns a result, the printed [B] is positive and the printed
    [lamda] is [1 / B], strictly between 0 and 2. *)
Theorem Get_printed_B_lamda : forall sand clay ompc d,
  fst (Get sand clay ompc true) = Ok (Some d) ->
  exists B lamda,
    lookup "B" (snd (Get sand clay ompc true)) = Some B /\
    lookup "lamda" (snd (Get sand clay ompc true)) = Some lamda /\
    0 < B /\ lamda = 1.0 / B /\ 0 < lamda < 2.
Proof.
  intros sand clay ompc d H.
  destruct (CheckArgs sand clay (py_min 70.0 ompc)) eqn:HC;
    [|unfold Get in H; rewrite HC in H; discriminate].
  set (om := py_min 70.0 ompc) in *.
  assert (Ht : exists r, tail_chain (theta33 sand clay om) (theta1500 sand clay om)
                           (thetaS sand clay om) = Ok r).
  { rewrite (Get_checked _ _ _ _ HC) in H. fold om in H.
    destruct (tail_chain _ _ _) as [r | e]; [eauto | discriminate]. }
  destruct Ht as [r Ht].
  pose proof (tail_chain_theta1500_pos _ _ _ _ Ht) as H15.
  pose proof (theta33_pos_of_theta1500 _ _ _ H15) as H33.
  pose proof (lamda_bounds sand clay om H15) as HL.
  pose proof (B_pos _ _ H15 (theta1500_le_theta33 sand clay om)) as HB.
  rewrite tail_chain_theta33_pos in Ht by exact H33. cbv zeta in Ht.
  destruct (py_pow _ _) as [p | e] eqn:Ep; cbn [bind] in Ht; [|discriminate].
  unfold Get; cbv zeta; fold om. rewrite HC; cbn [negb].
  rewrite tail_chain_theta33_pos by exact H33. cbv zeta. rewrite Ep. cbn [bind snd].
  cbv [lookup String.eqb Ascii.eqb Bool.eqb].
  do 2 eexists; split; [reflexivity|]. split; [reflexivity|].
  repeat split; auto; lra.
Qed.

Lemma Get_printed_B_lamda_witness :
  exists B lamda,
    lookup "B" (snd (Get 0 0 0 true)) = Some B /\
    lookup "lamda" (snd (Get 0 0 0 true)) = Some lamda /\
    0 < B /\ lamda = 1.0 / B /\ 0 < lamda < 2.
Proof. apply (Get_printed_B_lamda 0 0 0 (code_result 0 0 (py_min 70.0 0))); apply Get_000_ok. Defined.
